(** * malgo: the Go binding of the mini_al audio library

    A shallow embedding of the binding layer ([package mini_al]): the
    callback router ([goRecvCallback], [goSendCallback], [goStopCallback]),
    the package-level handler slots, device enumeration, the thin
    lifecycle wrappers ([Init], [Start], [Stop], [Uninit]) and the config
    helpers ([ConfigInit] and its variants), together with the send
    handler of the playback example.

    Conventions.
    - A Go [uint32] (and a C [mal_uint32]) is a [Z]; every conversion and
      every multiplication writes its reduction modulo [2^32] out.
    - Go code either returns or panics; [res] records which.  State is
      passed explicitly through the small monad [ST].
    - The C side of the cgo boundary (everything reached through [C.]) is
      not Go code: the binding is parametrised over it inside Sections. *)

From stdpp Require Import base option gmap strings.
From Stdlib Require Import ZArith Lia.

Local Open Scope Z_scope.

(** ** Machine integers and pointers *)

(** [uint32(x)]: conversion to a 32-bit unsigned integer. *)
Definition uint32 (x : Z) : Z := x mod 2 ^ 32.

(** [a * b] on [uint32] operands: the product wraps around. *)
Definition mul_uint32 (a b : Z) : Z := (a * b) mod 2 ^ 32.

(** The values a [uint32] variable can hold. *)
Definition is_uint32 (x : Z) : Prop := 0 <= x < 2 ^ 32.

(** A non-null address ([unsafe.Pointer], [*C.mal_device], ...).  A
    pointer that may be nil is an [option]. *)
Definition addr : Type := positive.

(** ** Outcomes and the state monad of the embedding *)

Inductive res (X : Type) : Type :=
| Ok (x : X)
| Panic.
Arguments Ok {X} x.
Arguments Panic {X}.

Definition ST (S X : Type) : Type := S -> res (X * S).

Definition ret {S X : Type} (x : X) : ST S X := fun s => Ok (x, s).

Definition panic {S X : Type} : ST S X := fun _ => Panic.

Definition bind {S X Y : Type} (m : ST S X) (k : X -> ST S Y) : ST S Y :=
  fun s =>
    match m s with
    | Ok (x, s') => k x s'
    | Panic => Panic
    end.

Notation "'call' x <-- m ;; k" := (bind m (fun x => k))
  (at level 10, x name, m at level 99, k at level 200).

(** A total, state-only step lifted into [ST]. *)
Definition modify {S : Type} (f : S -> S) : ST S unit := fun s => Ok (tt, f s).

(** ** Go slices over backend memory *)

(** A slice header: base address, length and capacity.  The bytes live
    in backend-owned memory, which the handlers reach through their own
    state. *)
Record Slice : Type := mkSlice {
  slice_ptr : addr;
  slice_len : Z;
  slice_cap : Z
}.

(** The slice expression [a[0:high]] on [a], the address [p] seen as a
    pointer to an array of [n] elements.  Go panics at run time unless
    [0 <= high <= n]; the slice has length [high] and capacity [n]. *)
Definition slice_array {S : Type} (p : addr) (n high : Z) : ST S Slice :=
  if (0 <=? high) && (high <=? n)
  then ret (mkSlice p high n)
  else panic.

(** ** Enumerations of the binding *)

(** Modelled from the spec: the declaration of [FormatType] is in a file
    of the package that is not part of the sources at hand.  The spec
    lists unsigned8, signed16, signed24, signed32 and float32. *)
Inductive FormatType : Type :=
| FormatU8
| FormatS16
| FormatS24
| FormatS32
| FormatF32.

(** Modelled from the spec: the declaration of [DeviceType] is missing
    as well; a device is of kind Playback or Capture. *)
Inductive DeviceType : Type :=
| Playback
| Capture.

(** Modelled from the spec: the byte width of a sample "is a pure
    function of format"; the widths are those the format names carry
    (the glossary: 16-bit stereo is 2 channels x 2 bytes).  The router is
    verified for an arbitrary width function; this one instantiates it. *)
Definition spec_bytes_per_sample (f : FormatType) : Z :=
  match f with
  | FormatU8 => 1
  | FormatS16 => 2
  | FormatS24 => 3
  | FormatS32 => 4
  | FormatF32 => 4
  end.

(** [C.mal_device] is declared in mini_al.h; these are the fields the
    binding reads ([pDevice.channels], [pDevice.format],
    [d.device._type], [d.device.sampleRate]). *)
Record mal_device : Type := mk_mal_device {
  _type : DeviceType;
  format : FormatType;
  channels : Z;
  sampleRate : Z
}.

(** ** Handlers *)

(** Handlers are application code running on the audio thread.  They act
    on a state [A] of the application's own (which includes the samples
    behind the slice) and are taken to return. *)
Definition RecvProc (A : Type) : Type := Z -> Slice -> A -> A.
Definition SendProc (A : Type) : Type := Z -> Slice -> A -> Z * A.
Definition StopProc (A : Type) : Type := A -> A.
Definition LogProc (A : Type) : Type := string -> A -> A.

(** The package-level variables [recvHandler], [sendHandler],
    [stopHandler] and [logHandler]; a nil func value is [None]. *)
Record Handlers (A : Type) : Type := mkHandlers {
  recvHandler : option (RecvProc A);
  sendHandler : option (SendProc A);
  stopHandler : option (StopProc A);
  logHandler : option (LogProc A)
}.
Arguments mkHandlers {A} _ _ _ _.
Arguments recvHandler {A} _.
Arguments sendHandler {A} _.
Arguments stopHandler {A} _.
Arguments logHandler {A} _.

(** ** The callback router *)

Section Router.
Context {A : Type}.

(** [C.mal_get_bytes_per_sample], on the C side of the boundary. *)
Variable mal_get_bytes_per_sample : FormatType -> Z.

(** [1 << 20]: the length of the array type the sample pointer is
    reinterpreted as. *)
Definition sample_window : Z := Z.shiftl 1 20.

Definition goRecvCallback (hs : Handlers A) (pDevice : mal_device)
    (frameCount : Z) (pSamples : addr) : ST A unit :=
  match recvHandler hs with
  | Some handler =>
      let sampleCount :=
        mul_uint32 (uint32 frameCount) (uint32 (channels pDevice)) in
      let sizeInBytes :=
        uint32 (mal_get_bytes_per_sample (format pDevice)) in
      call psamples <-- slice_array pSamples sample_window
                     (mul_uint32 sampleCount sizeInBytes) ;;
      modify (handler (uint32 frameCount) psamples)
  | None => ret tt
  end.

Definition goSendCallback (hs : Handlers A) (pDevice : mal_device)
    (frameCount : Z) (pSamples : addr) : ST A Z :=
  let r := 0 in
  match sendHandler hs with
  | Some handler =>
      let sampleCount :=
        mul_uint32 (uint32 frameCount) (uint32 (channels pDevice)) in
      let sizeInBytes :=
        uint32 (mal_get_bytes_per_sample (format pDevice)) in
      call psamples <-- slice_array pSamples sample_window
                     (mul_uint32 sampleCount sizeInBytes) ;;
      fun a =>
        let '(n, a') := handler (uint32 frameCount) psamples a in
        Ok (uint32 n, a')
  | None => ret r
  end.

Definition goStopCallback (hs : Handlers A) (pDevice : mal_device)
    : ST A unit :=
  match stopHandler hs with
  | Some handler => modify handler
  | None => ret tt
  end.

(** The recv handler of [hs] is called, once, with the frame count and
    a slice of [n] bytes at [p]. *)
Definition recv_hands_over (hs : Handlers A) (pDevice : mal_device)
    (frameCount : Z) (p : addr) (n : Z) : Prop :=
  forall (h : RecvProc A) (a : A),
    recvHandler hs = Some h ->
    exists psamples : Slice,
      slice_ptr psamples = p /\ slice_len psamples = n /\
      goRecvCallback hs pDevice frameCount p a
        = Ok (tt, h frameCount psamples a).

(** The same for the send handler; the callback returns what the
    handler returned. *)
Definition send_hands_over (hs : Handlers A) (pDevice : mal_device)
    (frameCount : Z) (p : addr) (n : Z) : Prop :=
  forall (h : SendProc A) (a : A),
    sendHandler hs = Some h ->
    exists psamples : Slice,
      slice_ptr psamples = p /\ slice_len psamples = n /\
      goSendCallback hs pDevice frameCount p a
        = Ok (uint32 (fst (h frameCount psamples a)),
              snd (h frameCount psamples a)).

End Router.

(** ** Results and errors *)

(** Modelled from the spec: [Result], [Success] and [errorFromResult] are
    declared in a file of the package that is not part of the sources at
    hand.  The spec's taxonomy of error kinds stands for the failure
    codes; a lifecycle operation returns success or one of these kinds. *)
Inductive ErrorKind : Type :=
| NoBackendAvailable
| InvalidConfig
| NotInitialized
| DeviceBusy
| BackendError (code : Z)
| EnumerationFailed.

(** Modelled from the spec: the [Result] of a call into the library,
    success or one of the error kinds. *)
Inductive Result : Type :=
| Success
| Failure (kind : ErrorKind).

(** A Go [error]; nil is [None]. *)
Definition error : Type := ErrorKind.

(** Modelled from the spec: [errorFromResult], missing with [Result];
    success is the nil error, a failure the error of its kind. *)
Definition errorFromResult (v : Result) : option error :=
  match v with
  | Success => None
  | Failure kind => Some kind
  end.

(** ** Data of the binding *)

(** [DeviceID]: a byte array of the size of [C.mal_device_id]. *)
Definition DeviceID : Type := list Byte.byte.
Definition mal_device_id : Type := list Byte.byte.

(** A [*DeviceID] is nil ([None]) or points to an identifier that is
    only read; [cptr] reinterprets the pointer and dereferences nothing,
    so nil stays nil. *)
Definition DeviceID_cptr (d : option DeviceID) : option mal_device_id := d.

Record DeviceInfo : Type := mkDeviceInfo {
  ID : DeviceID;
  Name : list Byte.byte;
  FormatCount : Z;
  Formats : list Z;
  MinChannels : Z;
  MaxChannels : Z;
  MinSampleRate : Z;
  MaxSampleRate : Z
}.

Record DeviceConfig : Type := mkDeviceConfig {
  Format : FormatType;
  Channels : Z;
  SampleRate : Z;
  ChannelMap : list Byte.byte;
  BufferSizeInFrames : Z;
  Periods : Z;
  ShareMode : Z;
  PerformanceProfile : Z;
  OnRecvCallback : option addr;
  OnSendCallback : option addr;
  OnStopCallback : option addr;
  AlsaNoMMap : Z;
  PulseStreamName : option addr
}.
Definition mal_device_config : Type := DeviceConfig.

Definition DeviceConfig_cptr (d : option DeviceConfig)
  : option mal_device_config := d.

(** [Device]: the two C pointers [NewDevice] fills in. *)
Record Device : Type := mkDevice {
  context : addr;
  device : addr
}.

(** What [C.mal_context_get_devices] leaves behind: its return value,
    the counts written through [cpcount] and [cccount], and the memory at
    [cpinfo] and [ccinfo] as the binding reads it, an array of pointers
    to device infos (a nil pointer is [None]). *)
Record EnumOut : Type := mkEnumOut {
  enum_ret : Result;
  enum_pinfo : nat -> option DeviceInfo;
  enum_pcount : Z;
  enum_cinfo : nat -> option DeviceInfo;
  enum_ccount : Z
}.

(** The Go functions exported to C, as the backend sees them: closed
    over the handler slots of the moment. *)
Record Callbacks (A : Type) : Type := mkCallbacks {
  onRecv : mal_device -> Z -> addr -> ST A unit;
  onSend : mal_device -> Z -> addr -> ST A Z;
  onStop : mal_device -> ST A unit
}.
Arguments mkCallbacks {A} _ _ _.
Arguments onRecv {A} _.
Arguments onSend {A} _.
Arguments onStop {A} _.

(** The state a method of [Device] runs in: the package-level handler
    slots, the state of the C library, and the application's state. *)
Record World (A B : Type) : Type := mkWorld {
  handlers : Handlers A;
  backend : B;
  app : A
}.
Arguments mkWorld {A B} _ _ _.
Arguments handlers {A B} _.
Arguments backend {A B} _.
Arguments app {A B} _.

(** ** The methods of [Device] *)

Section Binding.
Context {A B : Type}.

(** The C side of the boundary.  A call that may run callbacks gets
    them as its first argument and works on the backend and the
    application state. *)
Variable mal_get_bytes_per_sample : FormatType -> Z.
Variable mal_context_get_devices : addr -> B -> EnumOut * B.
Variable mal_device_init :
  addr -> DeviceType -> option mal_device_id -> option mal_device_config ->
  option addr -> addr -> B -> Result * B.
Variable mal_device_uninit : Callbacks A -> addr -> ST (B * A) unit.
Variable mal_device_start : Callbacks A -> addr -> ST (B * A) Result.
Variable mal_device_stop : Callbacks A -> addr -> ST (B * A) Result.
Variable mal_device_is_started : addr -> B -> Z.
Variable goSetRecvCallback : addr -> B -> B.
Variable goSetSendCallback : addr -> B -> B.
Variable goSetStopCallback : addr -> B -> B.

(** The exported callbacks over the current handler slots. *)
Definition exported (hs : Handlers A) : Callbacks A :=
  mkCallbacks (goRecvCallback mal_get_bytes_per_sample hs)
              (goSendCallback mal_get_bytes_per_sample hs)
              (goStopCallback hs).

(** A C call that touches the backend only. *)
Definition c_call {X : Type} (f : B -> X * B) : ST (World A B) X :=
  fun w =>
    let '(x, b') := f (backend w) in
    Ok (x, mkWorld (handlers w) b' (app w)).

(** A C call during which the backend may call back into Go. *)
Definition c_call_back {X : Type} (f : Callbacks A -> ST (B * A) X)
    : ST (World A B) X :=
  fun w =>
    match f (exported (handlers w)) (backend w, app w) with
    | Ok (x, (b', a')) => Ok (x, mkWorld (handlers w) b' a')
    | Panic => Panic
    end.

(** The loop [for _, d := range tmp { if d != nil { res = append(...) } }]. *)
Fixpoint append_infos (tmp : list (option DeviceInfo))
    (res : list DeviceInfo) : list DeviceInfo :=
  match tmp with
  | [] => res
  | d :: tmp' =>
      append_infos tmp'
        (match d with
         | Some info => res ++ [info]
         | None => res
         end)
  end.

(** [tmp := (pointer to an array of 1 << 20 pointers)(cinfo)[:count]]. *)
Definition info_window {S : Type} (mem : nat -> option DeviceInfo)
    (count : Z) : ST S (list (option DeviceInfo)) :=
  if (0 <=? count) && (count <=? sample_window)
  then ret (map mem (seq 0 (Z.to_nat count)))
  else panic.

Definition Devices (d : Device) (kind : DeviceType)
    : ST (World A B) (option (list DeviceInfo) * option error) :=
  call out <-- c_call (mal_context_get_devices (context d)) ;;
  let v := enum_ret out in
  match v with
  | Success =>
      let res := [] in
      call res <--
        match kind with
        | Playback =>
            call tmp <-- info_window (enum_pinfo out) (enum_pcount out) ;;
            ret (append_infos tmp res)
        | Capture =>
            call tmp <-- info_window (enum_cinfo out) (enum_ccount out) ;;
            ret (append_infos tmp res)
        end ;;
      ret (Some res, None)
  | Failure _ => ret (None, errorFromResult v)
  end.

Definition Init (d : Device) (kind : DeviceType)
    (pdeviceid : option DeviceID) (pconfig : option DeviceConfig)
    : ST (World A B) (option error) :=
  let ckind := kind in
  let cpdeviceid := DeviceID_cptr pdeviceid in
  let cpconfig := DeviceConfig_cptr pconfig in
  call v <-- c_call (mal_device_init (context d) ckind cpdeviceid cpconfig
                                      None (device d)) ;;
  ret (errorFromResult v).

Definition Uninit (d : Device) : ST (World A B) unit :=
  c_call_back (fun cbs => mal_device_uninit cbs (device d)).

Definition SetRecvCallback (d : Device) (proc : option (RecvProc A))
    : ST (World A B) unit :=
  call _u <-- modify (fun w =>
    mkWorld (mkHandlers proc (sendHandler (handlers w))
               (stopHandler (handlers w)) (logHandler (handlers w)))
            (backend w) (app w)) ;;
  c_call (fun b => (tt, goSetRecvCallback (device d) b)).

Definition SetSendCallback (d : Device) (proc : option (SendProc A))
    : ST (World A B) unit :=
  call _u <-- modify (fun w =>
    mkWorld (mkHandlers (recvHandler (handlers w)) proc
               (stopHandler (handlers w)) (logHandler (handlers w)))
            (backend w) (app w)) ;;
  c_call (fun b => (tt, goSetSendCallback (device d) b)).

Definition SetStopCallback (d : Device) (proc : option (StopProc A))
    : ST (World A B) unit :=
  call _u <-- modify (fun w =>
    mkWorld (mkHandlers (recvHandler (handlers w)) (sendHandler (handlers w))
               proc (logHandler (handlers w)))
            (backend w) (app w)) ;;
  c_call (fun b => (tt, goSetStopCallback (device d) b)).

Definition Start (d : Device) : ST (World A B) (option error) :=
  call v <-- c_call_back (fun cbs => mal_device_start cbs (device d)) ;;
  ret (errorFromResult v).

Definition Stop (d : Device) : ST (World A B) (option error) :=
  call v <-- c_call_back (fun cbs => mal_device_stop cbs (device d)) ;;
  ret (errorFromResult v).

Definition IsStarted (d : Device) : ST (World A B) bool :=
  call v <-- c_call (fun b => (uint32 (mal_device_is_started (device d) b), b)) ;;
  ret (if v =? 1 then true else false).

End Binding.

(** ** The device lifecycle inside the C library *)

Module MiniAL.

(** Modelled from the spec: the states of a device,
    "Uninitialized -> Initialized -> Started -> Initialized (Stop) ...
    -> Uninitialized (Uninit)". *)
Inductive State : Type :=
| Uninitialized
| Initialized
| Started.

(** Modelled from the spec: what a backend does that a fake backend
    recording call order would see (the send callback invoked, playback
    begun, the stream halted, the stop callback invoked, the stream
    resources released).  Hardware playback begins on the initial
    samples pulled before it: [PlaybackBegins p n] carries the number
    [n] of frames the send callback had delivered when the output
    started. *)
Inductive Event : Type :=
| SendCallbackInvoked (p : addr) (frames : Z)
| PlaybackBegins (p : addr) (delivered : Z)
| CaptureBegins (p : addr)
| StreamHalted (p : addr)
| StopCallbackInvoked (p : addr)
| ResourcesReleased (p : addr).

(** Modelled from the spec: the stream a device owns, with the fields
    the binding reads, the lifecycle state, the transfer buffer and its
    size in frames. *)
Record Stream : Type := mkStream {
  stream_device : mal_device;
  stream_state : State;
  stream_buffer : addr;
  stream_frames : Z
}.

(** Modelled from the spec: the state of the C library, the streams
    by device address and the events so far, oldest first. *)
Record Backend : Type := mkBackend {
  streams : gmap positive Stream;
  trace : list Event
}.

Definition state_of (b : Backend) (p : addr) : State :=
  match streams b !! p with
  | Some s => stream_state s
  | None => Uninitialized
  end.

(** How often the stream resources of device [p] were released. *)
Fixpoint free_count (p : addr) (tr : list Event) : nat :=
  match tr with
  | [] => 0%nat
  | ResourcesReleased q :: tr' =>
      ((if decide (p = q) then 1 else 0) + free_count p tr')%nat
  | _ :: tr' => free_count p tr'
  end.

Section Lifecycle.
Context {A : Type}.

Definition record (e : Event) : ST (Backend * A) unit :=
  modify (fun '(b, a) => (mkBackend (streams b) (trace b ++ [e]), a)).

Definition enter (p : addr) (s : Stream) (st : State)
    : ST (Backend * A) unit :=
  modify (fun '(b, a) =>
    (mkBackend
       (<[p := mkStream (stream_device s) st (stream_buffer s)
                        (stream_frames s)]> (streams b))
       (trace b), a)).

(** The backend thread running an exported Go callback. *)
Definition call_go {X : Type} (m : ST A X) : ST (Backend * A) X :=
  fun '(b, a) =>
    match m a with
    | Ok (x, a') => Ok (x, (b, a'))
    | Panic => Panic
    end.

(** Modelled from the spec: [mal_device_start] of mini_al.h, which is
    not part of the sources at hand.  "transitions Initialized ->
    Started.  For Playback devices, must pull one full buffer of
    initial samples from the send handler synchronously before the
    backend begins hardware playback.  Fails with DeviceBusy if
    already started; fails with NotInitialized if called before
    Init." *)
Definition mal_device_start (cbs : Callbacks A) (p : addr)
    : ST (Backend * A) Result :=
  fun ba =>
    match streams (fst ba) !! p with
    | None => ret (Failure NotInitialized) ba
    | Some s =>
        match stream_state s with
        | Uninitialized => ret (Failure NotInitialized) ba
        | Started => ret (Failure DeviceBusy) ba
        | Initialized =>
            match _type (stream_device s) with
            | Playback =>
                (call _u <-- record (SendCallbackInvoked p (stream_frames s)) ;;
                 call n <-- call_go (onSend cbs (stream_device s)
                                       (stream_frames s) (stream_buffer s)) ;;
                 call _u <-- record (PlaybackBegins p n) ;;
                 call _u <-- enter p s Started ;;
                 ret Success) ba
            | Capture =>
                (call _u <-- record (CaptureBegins p) ;;
                 call _u <-- enter p s Started ;;
                 ret Success) ba
            end
        end
    end.

(** The stream leaves Started: callbacks are no longer delivered and
    the stop callback runs, "invoked exactly once when the stream
    transitions out of Started for any reason". *)
Definition halt (cbs : Callbacks A) (p : addr) (s : Stream)
    : ST (Backend * A) unit :=
  call _u <-- record (StreamHalted p) ;;
  call _u <-- record (StopCallbackInvoked p) ;;
  call_go (onStop cbs (stream_device s)).

(** Modelled from the spec: [mal_device_stop] of mini_al.h.
    "transitions Started -> Initialized ...: calling Stop when not
    started is a caller error", made "an explicit
    DeviceBusy/precondition error rather than silently no-op". *)
Definition mal_device_stop (cbs : Callbacks A) (p : addr)
    : ST (Backend * A) Result :=
  fun ba =>
    match streams (fst ba) !! p with
    | None => ret (Failure NotInitialized) ba
    | Some s =>
        match stream_state s with
        | Uninitialized => ret (Failure NotInitialized) ba
        | Initialized => ret (Failure DeviceBusy) ba
        | Started =>
            (call _u <-- halt cbs p s ;;
             call _u <-- enter p s Initialized ;;
             ret Success) ba
        end
    end.

(** Modelled from the spec: [mal_device_uninit] of mini_al.h.
    "always safe; implicitly stops if started; releases backend
    stream resources; idempotent", and "Uninit transitions any state
    back to Uninitialized". *)
Definition mal_device_uninit (cbs : Callbacks A) (p : addr)
    : ST (Backend * A) unit :=
  fun ba =>
    match streams (fst ba) !! p with
    | None => ret tt ba
    | Some s =>
        match stream_state s with
        | Uninitialized => ret tt ba
        | Initialized =>
            (call _u <-- record (ResourcesReleased p) ;;
             enter p s Uninitialized) ba
        | Started =>
            (call _u <-- halt cbs p s ;;
             call _u <-- record (ResourcesReleased p) ;;
             enter p s Uninitialized) ba
        end
    end.

(** Modelled from the spec: [mal_device_is_started] of mini_al.h,
    "snapshot read of current state". *)
Definition mal_device_is_started (p : addr) (b : Backend) : Z :=
  match state_of b p with
  | Started => 1
  | _ => 0
  end.

End Lifecycle.

End MiniAL.

(** ** The binding over the modelled library *)

Section OverMiniAL.
Context {A : Type}.
Variable mal_get_bytes_per_sample : FormatType -> Z.

Definition Device_Start (d : Device)
    : ST (World A MiniAL.Backend) (option error) :=
  Start mal_get_bytes_per_sample MiniAL.mal_device_start d.

Definition Device_Stop (d : Device)
    : ST (World A MiniAL.Backend) (option error) :=
  Stop mal_get_bytes_per_sample MiniAL.mal_device_stop d.

Definition Device_Uninit (d : Device) : ST (World A MiniAL.Backend) unit :=
  Uninit mal_get_bytes_per_sample MiniAL.mal_device_uninit d.

Definition Device_IsStarted (d : Device) : ST (World A MiniAL.Backend) bool :=
  IsStarted MiniAL.mal_device_is_started d.

(** The lifecycle state of the device behind [d]. *)
Definition device_state (w : World A MiniAL.Backend) (d : Device)
    : MiniAL.State :=
  MiniAL.state_of (backend w) (device d).

End OverMiniAL.

(** What [Uninit] adds to the trace, by the state it finds the device in. *)
Definition uninit_events (st : MiniAL.State) (p : addr) : list MiniAL.Event :=
  match st with
  | MiniAL.Uninitialized => []
  | MiniAL.Initialized => [MiniAL.ResourcesReleased p]
  | MiniAL.Started =>
      [MiniAL.StreamHalted p; MiniAL.StopCallbackInvoked p;
       MiniAL.ResourcesReleased p]
  end.

(** ** Concrete handlers, devices and states *)

(** The application state of the examples: the calls its handlers got,
    newest first, each as frame count and length of the byte slice. *)
Definition CallLog : Type := list (Z * Z).

Definition logging_recv : RecvProc CallLog :=
  fun framecount psamples calls => (framecount, slice_len psamples) :: calls.

(** A send handler that logs its call and reports [produced] frames. *)
Definition logging_send (produced : Z) : SendProc CallLog :=
  fun framecount psamples calls =>
    (produced, (framecount, slice_len psamples) :: calls).

Definition silent_recv : RecvProc CallLog :=
  fun _ _ calls => calls.

Definition no_handlers : Handlers CallLog :=
  mkHandlers None None None None.

(** A recv handler and a send handler that produces 100 frames. *)
Definition logging_handlers : Handlers CallLog :=
  mkHandlers (Some logging_recv) (Some (logging_send 100)) None None.

Definition stereo_s16 (kind : DeviceType) : mal_device :=
  mk_mal_device kind FormatS16 2 44100.

Definition the_device : Device := mkDevice 1%positive 2%positive.
Definition other_device : Device := mkDevice 1%positive 5%positive.

(** A backend holding the stream of [the_device] in state [st], with a
    transfer buffer of 256 frames at address 3. *)
Definition backend_with (kind : DeviceType) (st : MiniAL.State)
    : MiniAL.Backend :=
  MiniAL.mkBackend
    (<[2%positive := MiniAL.mkStream (stereo_s16 kind) st 3%positive 256]> ∅)
    [].

Definition fresh_world : World CallLog MiniAL.Backend :=
  mkWorld no_handlers (MiniAL.mkBackend ∅ []) [].

Definition world_with (kind : DeviceType) (st : MiniAL.State)
    : World CallLog MiniAL.Backend :=
  mkWorld logging_handlers (backend_with kind st) [].

(** The state after the first [Start] of the initialised capture device. *)
Definition capturing_world : World CallLog MiniAL.Backend :=
  mkWorld logging_handlers
    (MiniAL.mkBackend
       (<[2%positive :=
            MiniAL.mkStream (stereo_s16 Capture) MiniAL.Started 3%positive 256]>
          (MiniAL.streams (backend_with Capture MiniAL.Initialized)))
       [MiniAL.CaptureBegins 2%positive])
    [].



(** A backend without state that enumerates no device at all. *)
Definition enumerate_nothing (ctx : addr) (b : unit) : EnumOut * unit :=
  (mkEnumOut Success (fun _ => None) 0 (fun _ => None) 0, b).

(** A C helper that leaves the backend as it is. *)
Definition keep_backend (p : addr) (b : MiniAL.Backend) : MiniAL.Backend := b.

(** [make([]*C.mal_device_info, 32)]: the pointer slots [Devices]
    allocates for each kind before the call; the memory past them is not
    part of the allocation. *)
Definition allocated_slots : Z := 32.

(** The count and the pointer array of the requested kind. *)
Definition count_of (kind : DeviceType) (out : EnumOut) : Z :=
  match kind with
  | Playback => enum_pcount out
  | Capture => enum_ccount out
  end.

Definition infos_of (kind : DeviceType) (out : EnumOut)
    : nat -> option DeviceInfo :=
  match kind with
  | Playback => enum_pinfo out
  | Capture => enum_cinfo out
  end.

(** ** Registration through the config helpers *)

Section Registration.
Context {A B : Type}.

(** The C helpers of malgo.h that build a [mal_device_config]. *)
Variable mal_get_bytes_per_sample : FormatType -> Z.
Variable goConfigInit : FormatType -> Z -> Z -> B -> mal_device_config * B.
Variable goConfigInitCapture :
  FormatType -> Z -> Z -> B -> mal_device_config * B.
Variable goConfigInitPlayback :
  FormatType -> Z -> Z -> B -> mal_device_config * B.
Variable goConfigInitDefaultCapture : B -> mal_device_config * B.
Variable goConfigInitDefaultPlayback : B -> mal_device_config * B.

(** [deviceConfigFromPointer]: the C config read as a [DeviceConfig]. *)
Definition deviceConfigFromPointer (c : mal_device_config) : DeviceConfig := c.

(** The assignments [recvHandler = proc] and [sendHandler = proc]. *)
Definition assign_recvHandler (proc : option (RecvProc A))
    : ST (World A B) unit :=
  modify (fun w =>
    mkWorld (mkHandlers proc (sendHandler (handlers w))
               (stopHandler (handlers w)) (logHandler (handlers w)))
            (backend w) (app w)).

Definition assign_sendHandler (proc : option (SendProc A))
    : ST (World A B) unit :=
  modify (fun w =>
    mkWorld (mkHandlers (recvHandler (handlers w)) proc
               (stopHandler (handlers w)) (logHandler (handlers w)))
            (backend w) (app w)).

Definition ConfigInit (d : Device) (format : FormatType)
    (channels samplerate : Z)
    (onrecvcallback : option (RecvProc A))
    (onsendcallback : option (SendProc A)) : ST (World A B) DeviceConfig :=
  let cformat := format in
  let cchannels := uint32 channels in
  let csamplerate := uint32 samplerate in
  call _u <-- assign_recvHandler onrecvcallback ;;
  call _u <-- assign_sendHandler onsendcallback ;;
  call c <-- c_call (goConfigInit cformat cchannels csamplerate) ;;
  ret (deviceConfigFromPointer c).

Definition ConfigInitCapture (d : Device) (format : FormatType)
    (channels samplerate : Z)
    (onrecvcallback : option (RecvProc A)) : ST (World A B) DeviceConfig :=
  let cformat := format in
  let cchannels := uint32 channels in
  let csamplerate := uint32 samplerate in
  call _u <-- assign_recvHandler onrecvcallback ;;
  call c <-- c_call (goConfigInitCapture cformat cchannels csamplerate) ;;
  ret (deviceConfigFromPointer c).

Definition ConfigInitPlayback (d : Device) (format : FormatType)
    (channels samplerate : Z)
    (onsendcallback : option (SendProc A)) : ST (World A B) DeviceConfig :=
  let cformat := format in
  let cchannels := uint32 channels in
  let csamplerate := uint32 samplerate in
  call _u <-- assign_sendHandler onsendcallback ;;
  call c <-- c_call (goConfigInitPlayback cformat cchannels csamplerate) ;;
  ret (deviceConfigFromPointer c).

Definition ConfigInitDefaultCapture (d : Device)
    (onrecvcallback : option (RecvProc A)) : ST (World A B) DeviceConfig :=
  call _u <-- assign_recvHandler onrecvcallback ;;
  call c <-- c_call goConfigInitDefaultCapture ;;
  ret (deviceConfigFromPointer c).

Definition ConfigInitDefaultPlayback (d : Device)
    (onsendcallback : option (SendProc A)) : ST (World A B) DeviceConfig :=
  call _u <-- assign_sendHandler onsendcallback ;;
  call c <-- c_call goConfigInitDefaultPlayback ;;
  ret (deviceConfigFromPointer c).

(** [SampleSizeInBytes]: the sample width the C library reports. *)
Definition SampleSizeInBytes (d : Device) (format : FormatType) : Z :=
  let cformat := format in
  uint32 (mal_get_bytes_per_sample cformat).

(** The handler slots a run leaves behind, if it returns. *)
Definition handlers_after {X : Type} (m : ST (World A B) X) (w : World A B)
    : option (Handlers A) :=
  match m w with
  | Ok (_, w') => Some (handlers w')
  | Panic => None
  end.

End Registration.

(** ** The send handler of the playback example *)

Section Playback.
Context {R : Type}.

(** [io.ReadFull(reader, samples)] on the reader in state [R]: the
    number of bytes copied into [samples] and the reader afterwards.
    The example drops the error. *)
Variable ReadFull : Slice -> R -> Z * R.

(** [a / b] on [uint32] operands: Go panics on a zero divisor. *)
Definition div_uint32 {S : Type} (a b : Z) : ST S Z :=
  if b =? 0 then panic else ret (a / b).

(** The closure [onSendSamples] over [reader], [channels] and
    [sampleSize]. *)
Definition onSendSamples (channels sampleSize : Z)
    (frameCount : Z) (samples : Slice) : ST R Z :=
  call n <-- (fun r => Ok (ReadFull samples r)) ;;
  call perChannel <-- div_uint32 (uint32 n) (uint32 channels) ;;
  div_uint32 perChannel sampleSize.

End Playback.

(** A reader with [left] bytes to go: [io.ReadFull] copies as many bytes
    as the slice holds, or all that is left. *)
Definition read_file (samples : Slice) (left : Z) : Z * Z :=
  (Z.min (slice_len samples) (Z.max 0 left),
   left - Z.min (slice_len samples) (Z.max 0 left)).

(** A backend without state whose enumeration fails, with counts far
    outside the window. *)
Definition enumerate_fails (ctx : addr) (b : unit) : EnumOut * unit :=
  (mkEnumOut (Failure EnumerationFailed) (fun _ => None) (2 ^ 31)
             (fun _ => None) (2 ^ 31), b).

(** Three pointers, the middle one nil. *)
Definition speakers : DeviceInfo :=
  mkDeviceInfo [] [] 1 [2] 1 2 44100 48000.
Definition headset : DeviceInfo :=
  mkDeviceInfo [] [] 1 [2] 1 1 8000 16000.
Definition enumerate_two (ctx : addr) (b : unit) : EnumOut * unit :=
  (mkEnumOut Success
     (fun i => match i with
               | O => Some speakers
               | S (S O) => Some headset
               | _ => None
               end) 3
     (fun _ => None) 0, b).

(** * Properties *)

(** ** Arithmetic of the buffer extent *)

Lemma uint32_small (x : Z) : is_uint32 x -> uint32 x = x.
Proof. intros Hx. unfold uint32. apply Z.mod_small. exact Hx. Qed.

Lemma uint32_range (x : Z) : is_uint32 (uint32 x).
Proof. unfold is_uint32, uint32. apply Z.mod_pos_bound. lia. Qed.

Lemma sample_window_value : sample_window = 1048576.
Proof. reflexivity. Qed.

(** Within the window the two wrapping products are the plain product. *)
Lemma extent_exact (f c b : Z) :
  is_uint32 f -> is_uint32 c -> is_uint32 b ->
  f * c * b <= sample_window ->
  mul_uint32 (mul_uint32 (uint32 f) (uint32 c)) (uint32 b) = f * c * b.
Proof.
  intros Hf Hc Hb Hle.
  rewrite !uint32_small by assumption.
  rewrite sample_window_value in Hle.
  unfold is_uint32 in *. unfold mul_uint32.
  destruct (Z.eq_dec b 0) as [-> | Hb0].
  - rewrite !Z.mul_0_r. reflexivity.
  - assert (Hfc : 0 <= f * c <= 1048576) by nia.
    rewrite (Z.mod_small (f * c)) by lia.
    apply Z.mod_small. nia.
Qed.

Lemma slice_array_in_range {S : Type} (p : addr) (n high : Z) (s : S) :
  0 <= high <= n -> slice_array p n high s = Ok (mkSlice p high n, s).
Proof.
  intros [H0 Hn]. unfold slice_array.
  apply Z.leb_le in H0. apply Z.leb_le in Hn.
  rewrite H0, Hn. reflexivity.
Qed.

Lemma slice_array_out_of_range {S : Type} (p : addr) (n high : Z) (s : S) :
  n < high -> slice_array p n high s = Panic.
Proof.
  intros Hlt. unfold slice_array.
  apply Z.leb_gt in Hlt. rewrite Hlt, andb_false_r. reflexivity.
Qed.

(** ** The router *)

Section RouterFacts.
Context {A : Type}.
Variable bps : FormatType -> Z.

Lemma goRecvCallback_within (hs : Handlers A) (h : RecvProc A)
    (pDevice : mal_device) (frameCount : Z) (p : addr) (a : A) :
  recvHandler hs = Some h ->
  is_uint32 frameCount -> is_uint32 (channels pDevice) ->
  is_uint32 (bps (format pDevice)) ->
  frameCount * channels pDevice * bps (format pDevice) <= sample_window ->
  goRecvCallback bps hs pDevice frameCount p a
    = Ok (tt, h frameCount
                (mkSlice p (frameCount * channels pDevice
                            * bps (format pDevice)) sample_window) a).
Proof.
  intros Hh Hf Hc Hb Hle. unfold goRecvCallback. rewrite Hh.
  rewrite extent_exact by assumption.
  unfold bind. rewrite slice_array_in_range.
  - rewrite (uint32_small frameCount) by assumption. reflexivity.
  - unfold is_uint32 in *. split; [nia | exact Hle].
Qed.

Lemma goSendCallback_within (hs : Handlers A) (h : SendProc A)
    (pDevice : mal_device) (frameCount : Z) (p : addr) (a : A) :
  sendHandler hs = Some h ->
  is_uint32 frameCount -> is_uint32 (channels pDevice) ->
  is_uint32 (bps (format pDevice)) ->
  frameCount * channels pDevice * bps (format pDevice) <= sample_window ->
  let psamples :=
    mkSlice p (frameCount * channels pDevice * bps (format pDevice))
            sample_window in
  goSendCallback bps hs pDevice frameCount p a
    = Ok (uint32 (fst (h frameCount psamples a)),
          snd (h frameCount psamples a)).
Proof.
  intros Hh Hf Hc Hb Hle psamples. unfold goSendCallback. rewrite Hh.
  rewrite extent_exact by assumption.
  unfold bind. rewrite slice_array_in_range.
  - rewrite (uint32_small frameCount) by assumption.
    fold psamples. destruct (h frameCount psamples a) as [n a']. reflexivity.
  - unfold is_uint32 in *. split; [nia | exact Hle].
Qed.

(** The stop callback never panics. *)
Lemma goStopCallback_returns (hs : Handlers A) (pDevice : mal_device)
    (a : A) :
  exists a', goStopCallback hs pDevice a = Ok (tt, a').
Proof.
  unfold goStopCallback. destruct (stopHandler hs) as [h |].
  - exists (h a). reflexivity.
  - exists a. reflexivity.
Qed.

(** Within the window the router is exact.  For frame count F,
    negotiated channel count C and sample width B (all 32-bit unsigned)
    with F*C*B no larger than the window of [1 << 20] bytes, the Recv
    and the Send callback hand the registered handler a byte buffer of
    length exactly F*C*B, whatever the FormatType of the device. *)
Theorem router_extent_within_window (hs : Handlers A)
    (pDevice : mal_device) (frameCount : Z) (p : addr) :
  is_uint32 frameCount -> is_uint32 (channels pDevice) ->
  is_uint32 (bps (format pDevice)) ->
  frameCount * channels pDevice * bps (format pDevice) <= 2 ^ 20 ->
  recv_hands_over bps hs pDevice frameCount p
    (frameCount * channels pDevice * bps (format pDevice))
  /\ send_hands_over bps hs pDevice frameCount p
    (frameCount * channels pDevice * bps (format pDevice)).
Proof.
  intros Hf Hc Hb Hle. split.
  - intros h a Hh. eexists. split; [| split].
    3: { apply goRecvCallback_within; eassumption. }
    all: reflexivity.
  - intros h a Hh. eexists. split; [| split].
    3: { apply goSendCallback_within; eassumption. }
    all: reflexivity.
Qed.

(** C2.  Whenever the Send callback reaches the registered handler
    (the slice expression is within the window), the frame count the
    handler returns, be it smaller than the one requested or not, is
    the callback's return value, and the callback returns normally. *)
Theorem send_frames_forwarded (hs : Handlers A) (h : SendProc A)
    (pDevice : mal_device) (frameCount : Z) (p : addr) (a a' : A)
    (psamples : Slice) (produced : Z) :
  sendHandler hs = Some h ->
  slice_array p sample_window
    (mul_uint32 (mul_uint32 (uint32 frameCount) (uint32 (channels pDevice)))
                (uint32 (bps (format pDevice)))) a = Ok (psamples, a) ->
  h (uint32 frameCount) psamples a = (produced, a') ->
  is_uint32 produced ->
  goSendCallback bps hs pDevice frameCount p a = Ok (produced, a').
Proof.
  intros Hh Hslice Hcall Hrange. unfold goSendCallback. rewrite Hh.
  unfold bind. rewrite Hslice, Hcall.
  rewrite uint32_small by assumption. reflexivity.
Qed.

(** C10.  With no handler of the matching kind registered, a callback
    is a no-op: [goRecvCallback] and [goStopCallback] return leaving
    the application untouched, and [goSendCallback] returns 0 frames;
    none of them panics, whatever the device, frame count and buffer. *)
Theorem callbacks_without_handler (hs : Handlers A)
    (pDevice : mal_device) (frameCount : Z) (p : addr) (a : A) :
  (recvHandler hs = None ->
     goRecvCallback bps hs pDevice frameCount p a = Ok (tt, a))
  /\ (sendHandler hs = None ->
     goSendCallback bps hs pDevice frameCount p a = Ok (0, a))
  /\ (stopHandler hs = None ->
     goStopCallback hs pDevice a = Ok (tt, a)).
Proof.
  repeat split; intros Hnil.
  - unfold goRecvCallback. rewrite Hnil. reflexivity.
  - unfold goSendCallback. rewrite Hnil. reflexivity.
  - unfold goStopCallback. rewrite Hnil. reflexivity.
Qed.

End RouterFacts.

(** ** Enumeration, initialisation and the handler slots *)

Section BindingFacts.
Context {A B : Type}.

Lemma info_window_empty {S : Type} (mem : nat -> option DeviceInfo) (s : S) :
  info_window mem 0 s = Ok ([], s).
Proof. reflexivity. Qed.

(** C6.  When [mal_context_get_devices] succeeds and reports a count of
    zero for the requested kind, [Devices] returns an empty, non-nil
    sequence of [DeviceInfo] and a nil error. *)
Theorem Devices_none_is_empty
    (mal_context_get_devices : addr -> B -> EnumOut * B)
    (d : Device) (kind : DeviceType) (w : World A B)
    (out : EnumOut) (b' : B) :
  mal_context_get_devices (context d) (backend w) = (out, b') ->
  enum_ret out = Success ->
  match kind with
  | Playback => enum_pcount out
  | Capture => enum_ccount out
  end = 0 ->
  Devices mal_context_get_devices d kind w
    = Ok ((Some [], None), mkWorld (handlers w) b' (app w)).
Proof.
  intros Hcall Hret Hcount.
  unfold Devices, bind, c_call. rewrite Hcall, Hret.
  destruct kind; rewrite Hcount, info_window_empty; reflexivity.
Qed.

(** C8.  [Init] with a nil device identifier calls [mal_device_init]
    with a null identifier, for every kind, config, device and state of
    the backend, and returns what that call returns. *)
Theorem Init_nil_passes_null
    (mal_device_init :
       addr -> DeviceType -> option mal_device_id ->
       option mal_device_config -> option addr -> addr -> B -> Result * B)
    (d : Device) (kind : DeviceType) (pconfig : option DeviceConfig)
    (w : World A B) :
  Init mal_device_init d kind None pconfig w
    = Ok (errorFromResult
            (fst (mal_device_init (context d) kind None pconfig None
                                  (device d) (backend w))),
          mkWorld (handlers w)
            (snd (mal_device_init (context d) kind None pconfig None
                                  (device d) (backend w)))
            (app w)).
Proof.
  unfold Init, bind, c_call, DeviceID_cptr, DeviceConfig_cptr.
  destruct (mal_device_init _ _ _ _ _ _ _) as [v b']. reflexivity.
Qed.

(** C7, as amended.  The binding holds one recv, one send and one stop
    handler in package-level slots shared by all devices;
    [SetRecvCallback], [SetSendCallback] and [SetStopCallback] return no
    error and store the given handler in their slot, whatever the device
    and its state, leaving the other slots and the application as they
    were. *)
Theorem setters_replace_shared_slot
    (goSetRecvCallback goSetSendCallback goSetStopCallback : addr -> B -> B)
    (d : Device) (w : World A B)
    (recv : option (RecvProc A)) (send : option (SendProc A))
    (stop : option (StopProc A)) :
  SetRecvCallback goSetRecvCallback d recv w
    = Ok (tt, mkWorld
                (mkHandlers recv (sendHandler (handlers w))
                   (stopHandler (handlers w)) (logHandler (handlers w)))
                (goSetRecvCallback (device d) (backend w)) (app w))
  /\ SetSendCallback goSetSendCallback d send w
    = Ok (tt, mkWorld
                (mkHandlers (recvHandler (handlers w)) send
                   (stopHandler (handlers w)) (logHandler (handlers w)))
                (goSetSendCallback (device d) (backend w)) (app w))
  /\ SetStopCallback goSetStopCallback d stop w
    = Ok (tt, mkWorld
                (mkHandlers (recvHandler (handlers w))
                   (sendHandler (handlers w)) stop (logHandler (handlers w)))
                (goSetStopCallback (device d) (backend w)) (app w)).
Proof. repeat split. Qed.

End BindingFacts.

(** ** The lifecycle over the modelled library *)

Section LifecycleFacts.
Context {A : Type}.
Variable bps : FormatType -> Z.

Lemma world_eta {B : Type} (w : World A B) :
  mkWorld (handlers w) (backend w) (app w) = w.
Proof. destruct w. reflexivity. Qed.

Lemma free_count_app (p : addr) (tr1 tr2 : list MiniAL.Event) :
  MiniAL.free_count p (tr1 ++ tr2)
    = (MiniAL.free_count p tr1 + MiniAL.free_count p tr2)%nat.
Proof.
  induction tr1 as [| e tr1 IH]; simpl.
  - reflexivity.
  - destruct e; rewrite IH; try reflexivity. lia.
Qed.

Lemma free_count_released (p : addr) :
  MiniAL.free_count p [MiniAL.ResourcesReleased p] = 1%nat.
Proof. simpl. rewrite decide_True by reflexivity. reflexivity. Qed.

(** Starting a device that is not initialised fails and changes nothing. *)
Lemma Start_not_initialized (d : Device) (w : World A MiniAL.Backend) :
  device_state w d = MiniAL.Uninitialized ->
  Device_Start bps d w = Ok (Some NotInitialized, w).
Proof.
  unfold device_state, MiniAL.state_of. intros Hst.
  unfold Device_Start, Start, bind, c_call_back, MiniAL.mal_device_start.
  simpl. destruct (MiniAL.streams (backend w) !! device d) as [s |].
  - rewrite Hst. simpl. rewrite world_eta. reflexivity.
  - simpl. rewrite world_eta. reflexivity.
Qed.

(** Starting a started device fails and changes nothing. *)
Lemma Start_started (d : Device) (w : World A MiniAL.Backend) :
  device_state w d = MiniAL.Started ->
  Device_Start bps d w = Ok (Some DeviceBusy, w).
Proof.
  unfold device_state, MiniAL.state_of. intros Hst.
  unfold Device_Start, Start, bind, c_call_back, MiniAL.mal_device_start.
  simpl. destruct (MiniAL.streams (backend w) !! device d) as [s |].
  - rewrite Hst. simpl. rewrite world_eta. reflexivity.
  - discriminate Hst.
Qed.

(** A start that succeeds leaves the device started. *)
Lemma Start_success_started (d : Device) (w w1 : World A MiniAL.Backend) :
  Device_Start bps d w = Ok (None, w1) ->
  device_state w1 d = MiniAL.Started.
Proof.
  unfold Device_Start, Start, bind, c_call_back, MiniAL.mal_device_start.
  simpl. destruct (MiniAL.streams (backend w) !! device d) as [s |];
    [| discriminate].
  destruct (MiniAL.stream_state s); try discriminate.
  unfold device_state, MiniAL.state_of.
  destruct (_type (MiniAL.stream_device s)); simpl.
  - unfold MiniAL.call_go, bind. simpl.
    destruct (goSendCallback bps (handlers w) (MiniAL.stream_device s)
                (MiniAL.stream_frames s) (MiniAL.stream_buffer s) (app w))
      as [[n a'] |]; [| discriminate].
    simpl. intros Heq. injection Heq as <-. simpl.
    rewrite lookup_insert_eq. reflexivity.
  - intros Heq. injection Heq as <-. simpl.
    rewrite lookup_insert_eq. reflexivity.
Qed.

(** [IsStarted] reads the lifecycle state. *)
Lemma IsStarted_reads_state (d : Device) (w : World A MiniAL.Backend) :
  Device_IsStarted d w
    = Ok (match device_state w d with
          | MiniAL.Started => true
          | _ => false
          end, w).
Proof.
  unfold Device_IsStarted, IsStarted, bind, c_call, device_state,
    MiniAL.mal_device_is_started.
  simpl. rewrite world_eta.
  destruct (MiniAL.state_of (backend w) (device d)); reflexivity.
Qed.

(** C3.  [Start] on a device that was not initialised returns the
    NotInitialized error and leaves the whole state as it was: the
    device is still Uninitialized and nothing was started. *)
Theorem Start_before_Init (d : Device) (w : World A MiniAL.Backend) :
  device_state w d = MiniAL.Uninitialized ->
  exists w1,
    Device_Start bps d w = Ok (Some NotInitialized, w1)
    /\ w1 = w
    /\ device_state w1 d = MiniAL.Uninitialized.
Proof.
  intros Hst. exists w. split; [| split].
  - apply Start_not_initialized. exact Hst.
  - reflexivity.
  - exact Hst.
Qed.

(** C4.  After a [Start] that succeeded, a second [Start] with no [Stop]
    in between returns the DeviceBusy error and leaves the state, in
    which the device is Started, unchanged. *)
Theorem Start_twice (d : Device) (w w1 : World A MiniAL.Backend) :
  Device_Start bps d w = Ok (None, w1) ->
  device_state w1 d = MiniAL.Started
  /\ Device_Start bps d w1 = Ok (Some DeviceBusy, w1).
Proof.
  intros Hfirst.
  assert (Hst : device_state w1 d = MiniAL.Started)
    by (eapply Start_success_started; exact Hfirst).
  split; [exact Hst |].
  apply Start_started. exact Hst.
Qed.

Lemma free_count_uninit_events (st : MiniAL.State) (p : addr) :
  MiniAL.free_count p (uninit_events st p)
    = match st with MiniAL.Uninitialized => 0%nat | _ => 1%nat end.
Proof.
  destruct st; simpl; try reflexivity;
    rewrite decide_True by reflexivity; reflexivity.
Qed.

(** One [Uninit]: it returns, the device is Uninitialized afterwards,
    and the trace grows by [uninit_events]. *)
Lemma Uninit_once (d : Device) (w : World A MiniAL.Backend) :
  exists w1,
    Device_Uninit bps d w = Ok (tt, w1)
    /\ device_state w1 d = MiniAL.Uninitialized
    /\ handlers w1 = handlers w
    /\ MiniAL.trace (backend w1)
         = MiniAL.trace (backend w)
             ++ uninit_events (device_state w d) (device d).
Proof.
  unfold Device_Uninit, Uninit, c_call_back, MiniAL.mal_device_uninit,
    device_state, MiniAL.state_of.
  simpl. destruct (MiniAL.streams (backend w) !! device d) as [s |] eqn:Hlook.
  - destruct (MiniAL.stream_state s) eqn:Hst; simpl.
    + exists w. rewrite world_eta, Hlook, Hst, app_nil_r. auto.
    + eexists. split; [reflexivity |]. simpl.
      rewrite lookup_insert_eq. auto.
    + unfold MiniAL.halt, MiniAL.call_go, bind. simpl.
      destruct (goStopCallback_returns (handlers w) (MiniAL.stream_device s)
                  (app w)) as [a' Hstop].
      rewrite Hstop. simpl.
      eexists. split; [reflexivity |]. simpl.
      rewrite lookup_insert_eq, <- !app_assoc. auto.
  - exists w. simpl. rewrite world_eta, Hlook, app_nil_r. auto.
Qed.

(** C5.  [Uninit] returns normally from every state and has no error to
    return; it leaves the device Uninitialized, having halted the stream
    first if it was Started; a second [Uninit] right after it returns as
    well and changes nothing, so over both calls the stream resources
    were released once if the device had been initialised (and not at
    all otherwise). *)
Theorem Uninit_safe_idempotent (d : Device) (w : World A MiniAL.Backend) :
  exists w1,
    Device_Uninit bps d w = Ok (tt, w1)
    /\ device_state w1 d = MiniAL.Uninitialized
    /\ (device_state w d = MiniAL.Started ->
        exists tr,
          MiniAL.trace (backend w1)
            = MiniAL.trace (backend w) ++ MiniAL.StreamHalted (device d) :: tr)
    /\ Device_Uninit bps d w1 = Ok (tt, w1)
    /\ MiniAL.free_count (device d) (MiniAL.trace (backend w1))
         = (MiniAL.free_count (device d) (MiniAL.trace (backend w))
            + match device_state w d with
              | MiniAL.Uninitialized => 0
              | _ => 1
              end)%nat.
Proof.
  destruct (Uninit_once d w) as (w1 & Hrun & Hst1 & _ & Htr).
  exists w1. split; [exact Hrun |]. split; [exact Hst1 |].
  split; [| split].
  - intros Hstarted. rewrite Hstarted in Htr. simpl in Htr.
    eexists. exact Htr.
  - destruct (Uninit_once d w1) as (w2 & Hrun2 & _ & _ & _).
    rewrite Hrun2. f_equal. f_equal.
    revert Hrun2.
    unfold Device_Uninit, Uninit, c_call_back, MiniAL.mal_device_uninit.
    unfold device_state, MiniAL.state_of in Hst1. simpl.
    destruct (MiniAL.streams (backend w1) !! device d) as [s |].
    + rewrite Hst1. simpl. rewrite world_eta. congruence.
    + simpl. rewrite world_eta. congruence.
  - rewrite Htr, free_count_app, free_count_uninit_events. reflexivity.
Qed.


End LifecycleFacts.

(** ** The theorems at concrete inputs *)

Lemma router_extent_within_window_witness :
  (is_uint32 256 /\ is_uint32 (channels (stereo_s16 Capture))
   /\ is_uint32 (spec_bytes_per_sample (format (stereo_s16 Capture)))
   /\ 256 * channels (stereo_s16 Capture)
        * spec_bytes_per_sample (format (stereo_s16 Capture)) <= 2 ^ 20)
  /\ recv_hands_over spec_bytes_per_sample logging_handlers
       (stereo_s16 Capture) 256 3%positive 1024
  /\ send_hands_over spec_bytes_per_sample logging_handlers
       (stereo_s16 Capture) 256 3%positive 1024.
Proof.
  assert (H256 : is_uint32 256) by (unfold is_uint32; lia).
  assert (H2 : is_uint32 2) by (unfold is_uint32; lia).
  assert (Hle : 256 * 2 * 2 <= 2 ^ 20) by lia.
  split.
  - repeat split; simpl; lia.
  - exact (router_extent_within_window spec_bytes_per_sample logging_handlers
             (stereo_s16 Capture) 256 3%positive H256 H2 H2 Hle).
Defined.

(** The router on 256 stereo 16-bit frames: the handler gets 1024 bytes. *)
Example recv_stereo_s16 :
  goRecvCallback spec_bytes_per_sample logging_handlers (stereo_s16 Capture)
    256 3%positive [] = Ok (tt, [(256, 1024)]).
Proof. reflexivity. Qed.

(** C1, the code at the failing input.  262145 stereo 16-bit frames
    are 1048580 bytes, four more than the [1 << 20] of the array type
    the sample pointer is cast to: the slice expression panics and the
    handler is not called at all, where the claim has it called with a
    buffer of 1048580 bytes. *)
Lemma router_extent_beyond_window :
  is_uint32 262145
  /\ goRecvCallback spec_bytes_per_sample logging_handlers
       (stereo_s16 Capture) 262145 3%positive [] = Panic
  /\ ~ recv_hands_over spec_bytes_per_sample logging_handlers
         (stereo_s16 Capture) 262145 3%positive (262145 * 2 * 2).
Proof.
  split; [unfold is_uint32; lia |]. split; [reflexivity |].
  intros Hclaim.
  destruct (Hclaim logging_recv [] eq_refl) as (psamples & _ & _ & Hrun).
  discriminate Hrun.
Qed.

(** Past [2^32] the product wraps: [2^31] stereo 8-bit frames reach the
    handler as an empty slice. *)
Example recv_extent_wraps :
  goRecvCallback spec_bytes_per_sample logging_handlers
    (mk_mal_device Capture FormatU8 2 44100) (2 ^ 31) 3%positive []
  = Ok (tt, [(2 ^ 31, 0)]).
Proof. reflexivity. Qed.

Lemma send_frames_forwarded_witness :
  goSendCallback spec_bytes_per_sample logging_handlers (stereo_s16 Playback)
    256 3%positive [] = Ok (100, [(256, 1024)]).
Proof.
  apply (send_frames_forwarded spec_bytes_per_sample logging_handlers
           (logging_send 100) (stereo_s16 Playback) 256 3%positive [] _
           (mkSlice 3%positive 1024 sample_window) 100).
  - reflexivity.
  - reflexivity.
  - reflexivity.
  - unfold is_uint32. lia.
Defined.

Lemma callbacks_without_handler_witness :
  goRecvCallback spec_bytes_per_sample no_handlers (stereo_s16 Capture)
    262145 3%positive [] = Ok (tt, [])
  /\ goSendCallback spec_bytes_per_sample no_handlers (stereo_s16 Capture)
       262145 3%positive [] = Ok (0, [])
  /\ goStopCallback no_handlers (stereo_s16 Capture) [] = Ok (tt, []).
Proof.
  pose proof (callbacks_without_handler spec_bytes_per_sample no_handlers
                (stereo_s16 Capture) 262145 3%positive [])
    as (Hrecv & Hsend & Hstop).
  split; [| split].
  - apply Hrecv. reflexivity.
  - apply Hsend. reflexivity.
  - apply Hstop. reflexivity.
Defined.

Lemma Devices_none_is_empty_witness :
  Devices enumerate_nothing the_device Playback
    (mkWorld no_handlers tt [])
  = Ok ((Some [], None), mkWorld no_handlers tt []).
Proof.
  apply (Devices_none_is_empty enumerate_nothing the_device Playback
           (mkWorld no_handlers tt [])
           (mkEnumOut Success (fun _ => None) 0 (fun _ => None) 0) tt).
  - reflexivity.
  - reflexivity.
  - reflexivity.
Defined.

Lemma Start_before_Init_witness :
  device_state fresh_world the_device = MiniAL.Uninitialized
  /\ exists w1,
       Device_Start spec_bytes_per_sample the_device fresh_world
         = Ok (Some NotInitialized, w1)
       /\ w1 = fresh_world
       /\ device_state w1 the_device = MiniAL.Uninitialized.
Proof.
  split.
  - reflexivity.
  - apply (Start_before_Init spec_bytes_per_sample the_device fresh_world).
    reflexivity.
Defined.

(** A device that went through [Uninit] counts as not initialised too. *)
Example Start_after_Uninit :
  Device_Start spec_bytes_per_sample the_device
    (world_with Playback MiniAL.Uninitialized)
  = Ok (Some NotInitialized, world_with Playback MiniAL.Uninitialized).
Proof. apply Start_not_initialized. reflexivity. Qed.

Lemma Start_twice_witness :
  Device_Start spec_bytes_per_sample the_device
    (world_with Capture MiniAL.Initialized) = Ok (None, capturing_world)
  /\ device_state capturing_world the_device = MiniAL.Started
  /\ Device_Start spec_bytes_per_sample the_device capturing_world
       = Ok (Some DeviceBusy, capturing_world).
Proof.
  assert (Hfirst :
    Device_Start spec_bytes_per_sample the_device
      (world_with Capture MiniAL.Initialized) = Ok (None, capturing_world))
    by reflexivity.
  split; [exact Hfirst |].
  exact (Start_twice spec_bytes_per_sample the_device
           (world_with Capture MiniAL.Initialized) capturing_world Hfirst).
Defined.

(** [Uninit] twice on a started device: one halt, one release. *)
Example Uninit_twice_started :
  exists w1,
    Device_Uninit spec_bytes_per_sample the_device
      (world_with Playback MiniAL.Started) = Ok (tt, w1)
    /\ Device_Uninit spec_bytes_per_sample the_device w1 = Ok (tt, w1)
    /\ MiniAL.trace (backend w1)
         = [MiniAL.StreamHalted 2%positive;
            MiniAL.StopCallbackInvoked 2%positive;
            MiniAL.ResourcesReleased 2%positive]
    /\ MiniAL.free_count 2%positive (MiniAL.trace (backend w1)) = 1%nat.
Proof.
  eexists. split; [reflexivity |]. split; [reflexivity |].
  split; reflexivity.
Qed.



(** C7 as stated fails.  On the started device a [SetRecvCallback] comes
    back without an error and the callbacks of that device run the new
    handler from then on; and a [SetRecvCallback] through another device
    replaces the handler the first device's callbacks run. *)
Lemma setter_while_started_takes_effect :
  device_state capturing_world the_device = MiniAL.Started
  /\ goRecvCallback spec_bytes_per_sample (handlers capturing_world)
       (stereo_s16 Capture) 256 3%positive [] = Ok (tt, [(256, 1024)])
  /\ (exists w1,
        SetRecvCallback keep_backend the_device (Some silent_recv)
          capturing_world = Ok (tt, w1)
        /\ device_state w1 the_device = MiniAL.Started
        /\ goRecvCallback spec_bytes_per_sample (handlers w1)
             (stereo_s16 Capture) 256 3%positive [] = Ok (tt, []))
  /\ (exists w2,
        device other_device <> device the_device
        /\ SetRecvCallback keep_backend other_device (Some silent_recv)
             capturing_world = Ok (tt, w2)
        /\ goRecvCallback spec_bytes_per_sample (handlers w2)
             (stereo_s16 Capture) 256 3%positive [] = Ok (tt, [])).
Proof.
  split; [reflexivity |]. split; [reflexivity |]. split.
  - eexists. split; [reflexivity |]. split; reflexivity.
  - eexists. split; [discriminate |]. split; reflexivity.
Qed.

(** * Further properties of the binding *)

(** ** The router on every input *)

Lemma extent_modulo (f c b : Z) :
  mul_uint32 (mul_uint32 (uint32 f) (uint32 c)) (uint32 b)
    = uint32 (f * c * b).
Proof.
  unfold mul_uint32, uint32.
  rewrite <- (Z.mul_mod f c) by lia.
  rewrite <- (Z.mul_mod (f * c) b) by lia.
  reflexivity.
Qed.

Lemma slice_array_uint32 {S : Type} (p : addr) (x : Z) (s : S) :
  slice_array p sample_window (uint32 x) s
    = if uint32 x <=? sample_window
      then Ok (mkSlice p (uint32 x) sample_window, s)
      else Panic.
Proof.
  unfold slice_array.
  assert (H0 : (0 <=? uint32 x) = true)
    by (apply Z.leb_le; apply uint32_range).
  rewrite H0. simpl. destruct (uint32 x <=? sample_window); reflexivity.
Qed.

Section RouterOnEveryInput.
Context {A : Type}.
Variable bps : FormatType -> Z.

(** X1.  With a handler registered, the Recv and the Send callback compute
    the byte extent modulo [2^32]: if the reduced product of frame
    count, channel count and sample width is within the window of
    [1 << 20], the handler is called once with a slice of exactly that
    length and of capacity [1 << 20]; otherwise the callback panics
    without calling the handler. *)
Theorem router_extent_modulo (hs : Handlers A) (pDevice : mal_device)
    (frameCount : Z) (p : addr) (a : A) :
  let extent :=
    uint32 (frameCount * channels pDevice * bps (format pDevice)) in
  (forall h : RecvProc A,
     recvHandler hs = Some h ->
     goRecvCallback bps hs pDevice frameCount p a
       = if extent <=? sample_window
         then Ok (tt, h (uint32 frameCount)
                        (mkSlice p extent sample_window) a)
         else Panic)
  /\ (forall h : SendProc A,
     sendHandler hs = Some h ->
     goSendCallback bps hs pDevice frameCount p a
       = if extent <=? sample_window
         then Ok (uint32 (fst (h (uint32 frameCount)
                                 (mkSlice p extent sample_window) a)),
                  snd (h (uint32 frameCount)
                         (mkSlice p extent sample_window) a))
         else Panic).
Proof.
  intros extent. split; intros h Hh.
  - unfold goRecvCallback. rewrite Hh, extent_modulo.
    unfold bind. rewrite slice_array_uint32. fold extent.
    destruct (extent <=? sample_window); reflexivity.
  - unfold goSendCallback. rewrite Hh, extent_modulo.
    unfold bind. rewrite slice_array_uint32. fold extent.
    destruct (extent <=? sample_window); [| reflexivity].
    destruct (h (uint32 frameCount) (mkSlice p extent sample_window) a).
    reflexivity.
Qed.

End RouterOnEveryInput.

(** ** Enumeration with devices *)

Lemma append_infos_omap (tmp : list (option DeviceInfo))
    (res : list DeviceInfo) :
  append_infos tmp res = res ++ omap id tmp.
Proof.
  revert res. induction tmp as [| d tmp IH]; intros res; simpl.
  - rewrite app_nil_r. reflexivity.
  - rewrite IH. destruct d as [info |]; simpl.
    + rewrite <- app_assoc. reflexivity.
    + reflexivity.
Qed.

Lemma omap_id_map {X Y : Type} (f : X -> option Y) (l : list X) :
  omap id (map f l) = omap f l.
Proof.
  induction l as [| x l IH]; [reflexivity |].
  cbn. unfold id at 1. destruct (f x); cbn; rewrite <- IH; reflexivity.
Qed.

Lemma omap_length_le {X Y : Type} (f : X -> option Y) (l : list X) :
  (length (omap f l) <= length l)%nat.
Proof.
  induction l as [| x l IH]; [reflexivity |].
  cbn. destruct (f x); cbn; fold (omap f l); lia.
Qed.

Lemma info_window_within {S : Type} (mem : nat -> option DeviceInfo)
    (count : Z) (s : S) :
  0 <= count <= sample_window ->
  info_window mem count s = Ok (map mem (seq 0 (Z.to_nat count)), s).
Proof.
  intros [H0 Hw]. unfold info_window.
  apply Z.leb_le in H0. apply Z.leb_le in Hw. rewrite H0, Hw. reflexivity.
Qed.

Section DevicesFacts.
Context {A B : Type}.
Variable mal_context_get_devices : addr -> B -> EnumOut * B.

Lemma Devices_success (d : Device) (kind : DeviceType) (w : World A B)
    (out : EnumOut) (b' : B) :
  mal_context_get_devices (context d) (backend w) = (out, b') ->
  enum_ret out = Success ->
  Devices mal_context_get_devices d kind w
    = match info_window (infos_of kind out) (count_of kind out)
              (mkWorld (handlers w) b' (app w)) with
      | Ok (tmp, w') => Ok ((Some (omap id tmp), None), w')
      | Panic => Panic
      end.
Proof.
  intros Hcall Hret. unfold Devices, bind, c_call.
  rewrite Hcall, Hret.
  destruct kind; simpl;
    match goal with
    | |- context [info_window ?m ?c ?s] =>
        destruct (info_window m c s) as [[tmp w'] |]
    end; try reflexivity;
    rewrite append_infos_omap; reflexivity.
Qed.

(** X2.  On success with a count no larger than the 32 pointer slots
    [Devices] allocates for a kind, [Devices] returns the device infos
    behind the non-nil pointers among the first [count] slots of the
    requested kind, in the order of the slots, and a nil error; the
    other kind's slots and count play no part. *)
Theorem Devices_lists_pointed_infos (d : Device) (kind : DeviceType)
    (w : World A B) (out : EnumOut) (b' : B) :
  mal_context_get_devices (context d) (backend w) = (out, b') ->
  enum_ret out = Success ->
  0 <= count_of kind out <= allocated_slots ->
  Devices mal_context_get_devices d kind w
    = Ok ((Some (omap (infos_of kind out)
                   (seq 0 (Z.to_nat (count_of kind out)))), None),
          mkWorld (handlers w) b' (app w)).
Proof.
  intros Hcall Hret Hcount.
  rewrite (Devices_success d kind w out b' Hcall Hret).
  rewrite info_window_within
    by (unfold allocated_slots in Hcount; rewrite sample_window_value; lia).
  rewrite omap_id_map. reflexivity.
Qed.

(** X3.  Whenever [Devices] returns a list, the error is nil, the backend
    call succeeded, the list is no longer than the count the backend
    reported, and each of its elements is behind one of the first
    [count] pointers. *)
Theorem Devices_returns_only_counted (d : Device) (kind : DeviceType)
    (w w' : World A B) (out : EnumOut) (b' : B)
    (infos : list DeviceInfo) (e : option error) :
  mal_context_get_devices (context d) (backend w) = (out, b') ->
  Devices mal_context_get_devices d kind w = Ok ((Some infos, e), w') ->
  e = None
  /\ enum_ret out = Success
  /\ Z.of_nat (length infos) <= count_of kind out
  /\ forall info, info ∈ infos ->
       exists i : nat,
         Z.of_nat i < count_of kind out
         /\ infos_of kind out i = Some info.
Proof.
  intros Hcall Hrun.
  destruct (enum_ret out) eqn:Hret.
  2: { revert Hrun. unfold Devices, bind, c_call.
       rewrite Hcall, Hret. discriminate. }
  rewrite (Devices_success d kind w out b' Hcall Hret) in Hrun.
  unfold info_window in Hrun.
  destruct ((0 <=? count_of kind out)
            && (count_of kind out <=? sample_window)) eqn:Hwin;
    [| discriminate Hrun].
  apply andb_true_iff in Hwin as [H0 _]. apply Z.leb_le in H0.
  simpl in Hrun. injection Hrun as Hinfos He _.
  rewrite omap_id_map in Hinfos. subst infos.
  split; [symmetry; exact He |]. split; [reflexivity |]. split.
  - pose proof (omap_length_le (infos_of kind out)
                  (seq 0 (Z.to_nat (count_of kind out)))) as Hlen.
    rewrite length_seq in Hlen. lia.
  - intros info Hin.
    apply list_elem_of_omap in Hin as (i & Hi & Hsome).
    apply elem_of_seq in Hi.
    exists i. split; [lia | exact Hsome].
Qed.

(** X4.  When the backend call fails, [Devices] returns a nil list and the
    error of the failure, for either kind and whatever the counts are:
    the pointer arrays are not read and nothing panics. *)
Theorem Devices_failure (d : Device) (kind : DeviceType) (w : World A B)
    (out : EnumOut) (b' : B) (cause : ErrorKind) :
  mal_context_get_devices (context d) (backend w) = (out, b') ->
  enum_ret out = Failure cause ->
  Devices mal_context_get_devices d kind w
    = Ok ((None, Some cause), mkWorld (handlers w) b' (app w)).
Proof.
  intros Hcall Hret. unfold Devices, bind, c_call.
  rewrite Hcall, Hret. reflexivity.
Qed.

End DevicesFacts.

(** ** Registration through the config helpers *)

Section RegistrationFacts.
Context {A B : Type}.

(** X5.  [ConfigInit] stores both callbacks it is given, in place of whatever
    recv and send handlers were registered (a nil argument unregisters),
    and keeps the stop and log handlers and the application state; from
    then on the Recv and Send callbacks do what they do with these two
    handlers alone. *)
Theorem ConfigInit_replaces_both
    (goConfigInit : FormatType -> Z -> Z -> B -> mal_device_config * B)
    (d : Device) (format : FormatType) (channels samplerate : Z)
    (onrecv : option (RecvProc A)) (onsend : option (SendProc A))
    (w : World A B) :
  exists (cfg : DeviceConfig) (w' : World A B),
    ConfigInit goConfigInit d format channels samplerate onrecv onsend w
      = Ok (cfg, w')
    /\ handlers w'
         = mkHandlers onrecv onsend (stopHandler (handlers w))
             (logHandler (handlers w))
    /\ app w' = app w
    /\ forall (bps : FormatType -> Z) (pDevice : mal_device)
              (frameCount : Z) (p : addr),
         goRecvCallback bps (handlers w') pDevice frameCount p
           = goRecvCallback bps (mkHandlers onrecv onsend None None)
               pDevice frameCount p
         /\ goSendCallback bps (handlers w') pDevice frameCount p
           = goSendCallback bps (mkHandlers onrecv onsend None None)
               pDevice frameCount p.
Proof.
  unfold ConfigInit, bind, assign_recvHandler, assign_sendHandler, modify,
    c_call. simpl.
  destruct (goConfigInit format (uint32 channels) (uint32 samplerate)
              (backend w)) as [c b'].
  eexists. eexists. split; [reflexivity |]. simpl.
  split; [reflexivity |]. split; [reflexivity |].
  intros bps pDevice frameCount p. split; reflexivity.
Qed.

(** X6.  As far as the handler slots go, the config helpers register like the
    setters: [ConfigInitCapture] and [ConfigInitDefaultCapture] like
    [SetRecvCallback], [ConfigInitPlayback] and
    [ConfigInitDefaultPlayback] like [SetSendCallback], and [ConfigInit]
    like the two setters one after the other. *)
Theorem config_helpers_register_like_setters
    (goConfigInit goConfigInitCapture goConfigInitPlayback :
       FormatType -> Z -> Z -> B -> mal_device_config * B)
    (goConfigInitDefaultCapture goConfigInitDefaultPlayback :
       B -> mal_device_config * B)
    (goSetRecvCallback goSetSendCallback : addr -> B -> B)
    (d : Device) (format : FormatType) (channels samplerate : Z)
    (onrecv : option (RecvProc A)) (onsend : option (SendProc A))
    (w : World A B) :
  handlers_after
      (ConfigInitCapture goConfigInitCapture d format channels samplerate
         onrecv) w
    = handlers_after (SetRecvCallback goSetRecvCallback d onrecv) w
  /\ handlers_after
      (ConfigInitDefaultCapture goConfigInitDefaultCapture d onrecv) w
    = handlers_after (SetRecvCallback goSetRecvCallback d onrecv) w
  /\ handlers_after
      (ConfigInitPlayback goConfigInitPlayback d format channels samplerate
         onsend) w
    = handlers_after (SetSendCallback goSetSendCallback d onsend) w
  /\ handlers_after
      (ConfigInitDefaultPlayback goConfigInitDefaultPlayback d onsend) w
    = handlers_after (SetSendCallback goSetSendCallback d onsend) w
  /\ handlers_after
      (ConfigInit goConfigInit d format channels samplerate onrecv onsend) w
    = handlers_after
        (call _u <-- SetRecvCallback goSetRecvCallback d onrecv ;;
         SetSendCallback goSetSendCallback d onsend) w.
Proof.
  unfold handlers_after, ConfigInit, ConfigInitCapture, ConfigInitPlayback,
    ConfigInitDefaultCapture, ConfigInitDefaultPlayback, SetRecvCallback,
    SetSendCallback, assign_recvHandler, assign_sendHandler, bind, modify,
    c_call.
  simpl.
  destruct (goConfigInitCapture format (uint32 channels) (uint32 samplerate)
              (backend w)).
  destruct (goConfigInitDefaultCapture (backend w)).
  destruct (goConfigInitPlayback format (uint32 channels) (uint32 samplerate)
              (backend w)).
  destruct (goConfigInitDefaultPlayback (backend w)).
  destruct (goConfigInit format (uint32 channels) (uint32 samplerate)
              (backend w)).
  repeat split.
Qed.

End RegistrationFacts.

(** ** The send handler of the playback example *)

Lemma div_uint32_nonzero {S : Type} (a b : Z) (s : S) :
  b <> 0 -> div_uint32 a b s = Ok (a / b, s).
Proof.
  intros Hb. unfold div_uint32.
  apply Z.eqb_neq in Hb. rewrite Hb. reflexivity.
Qed.

Lemma div_uint32_zero {S : Type} (a : Z) (s : S) :
  div_uint32 a 0 s = Panic.
Proof. reflexivity. Qed.

(** The whole frames among [n] bytes. *)
Lemma whole_frames_bounds (c b f n : Z) :
  0 < c -> 0 < b -> 0 <= n -> n <= f * c * b ->
  0 <= n / (c * b) <= f
  /\ n / (c * b) * c * b <= n < (n / (c * b) + 1) * c * b.
Proof.
  intros Hc Hb Hn Hle.
  assert (Hcb : 0 < c * b) by nia.
  pose proof (Z.mul_div_le n _ Hcb) as Hlow.
  pose proof (Z.mul_succ_div_gt n _ Hcb) as Hhigh.
  pose proof (Z.div_pos n _ Hn Hcb) as Hpos.
  set (k := n / (c * b)) in *.
  repeat split; try lia; try nia.
Qed.

Section PlaybackFacts.
Context {R : Type}.
Variable ReadFull : Slice -> R -> Z * R.

(** What the closure returns when no divisor is zero. *)
Lemma onSendSamples_returns (channels sampleSize frameCount : Z)
    (samples : Slice) (r r' : R) (n : Z) :
  is_uint32 channels -> channels <> 0 -> 0 < sampleSize ->
  is_uint32 n ->
  ReadFull samples r = (n, r') ->
  onSendSamples ReadFull channels sampleSize frameCount samples r
    = Ok (n / (channels * sampleSize), r').
Proof.
  intros Hc Hc0 Hb Hn Hread.
  unfold onSendSamples, bind. rewrite Hread.
  rewrite !uint32_small by assumption.
  rewrite div_uint32_nonzero by exact Hc0.
  rewrite div_uint32_nonzero by lia.
  rewrite Z.div_div by lia. reflexivity.
Qed.

(** X7.  When the reader fills the whole slice of [F * channels * sampleSize]
    bytes, the closure reports exactly [F] frames: its two divisions
    undo the router's two multiplications. *)
Theorem onSendSamples_full_read (channels sampleSize frameCount : Z)
    (samples : Slice) (r r' : R) :
  is_uint32 channels -> channels <> 0 -> 0 < sampleSize ->
  is_uint32 (slice_len samples) ->
  slice_len samples = frameCount * channels * sampleSize ->
  ReadFull samples r = (slice_len samples, r') ->
  onSendSamples ReadFull channels sampleSize frameCount samples r
    = Ok (frameCount, r').
Proof.
  intros Hc Hc0 Hb Hlen Hext Hread.
  rewrite (onSendSamples_returns channels sampleSize frameCount samples r r'
             (slice_len samples)) by assumption.
  rewrite Hext, <- Z.mul_assoc.
  rewrite Z.div_mul by (unfold is_uint32 in Hc; nia). reflexivity.
Qed.

(** X8.  On a short read of [n] bytes the closure reports the whole frames
    among them and drops the rest: [k] frames with
    [k * channels * sampleSize <= n < (k + 1) * channels * sampleSize],
    never more than were asked for. *)
Theorem onSendSamples_whole_frames (channels sampleSize frameCount : Z)
    (samples : Slice) (r r' : R) (n : Z) :
  is_uint32 channels -> channels <> 0 -> 0 < sampleSize ->
  is_uint32 n ->
  n <= frameCount * channels * sampleSize ->
  ReadFull samples r = (n, r') ->
  exists k : Z,
    onSendSamples ReadFull channels sampleSize frameCount samples r
      = Ok (k, r')
    /\ 0 <= k <= frameCount
    /\ k * channels * sampleSize <= n < (k + 1) * channels * sampleSize.
Proof.
  intros Hc Hc0 Hb Hn Hle Hread.
  exists (n / (channels * sampleSize)).
  split.
  - apply onSendSamples_returns; assumption.
  - unfold is_uint32 in *. apply whole_frames_bounds; lia.
Qed.

(** X9.  A zero channel count, or a zero sample size, makes the closure panic
    on its first call (integer division by zero), after it has read from
    the reader and whatever was read. *)
Theorem onSendSamples_zero_divisor (channels sampleSize frameCount : Z)
    (samples : Slice) (r : R) :
  uint32 channels = 0 \/ sampleSize = 0 ->
  onSendSamples ReadFull channels sampleSize frameCount samples r = Panic.
Proof.
  intros Hzero. unfold onSendSamples, bind.
  destruct (ReadFull samples r) as [n r'].
  destruct (Z.eq_dec (uint32 channels) 0) as [Hc | Hc].
  - rewrite Hc, div_uint32_zero. reflexivity.
  - rewrite div_uint32_nonzero by exact Hc.
    destruct Hzero as [Hc' | ->]; [contradiction |].
    apply div_uint32_zero.
Qed.

End PlaybackFacts.

(** ** The further theorems at concrete inputs *)

Lemma router_extent_modulo_witness :
  goRecvCallback spec_bytes_per_sample logging_handlers
    (mk_mal_device Capture FormatU8 2 44100) (2 ^ 31) 3%positive []
    = Ok (tt, [(2 ^ 31, 0)])
  /\ goSendCallback spec_bytes_per_sample logging_handlers
       (stereo_s16 Playback) 262145 3%positive [] = Panic.
Proof.
  split.
  - exact (proj1 (router_extent_modulo spec_bytes_per_sample
                    logging_handlers (mk_mal_device Capture FormatU8 2 44100)
                    (2 ^ 31) 3%positive [])
                 logging_recv eq_refl).
  - exact (proj2 (router_extent_modulo spec_bytes_per_sample
                    logging_handlers (stereo_s16 Playback)
                    262145 3%positive [])
                 (logging_send 100) eq_refl).
Defined.

Lemma Devices_lists_pointed_infos_witness :
  Devices enumerate_two the_device Playback (mkWorld no_handlers tt [])
  = Ok ((Some [speakers; headset], None), mkWorld no_handlers tt []).
Proof.
  apply (Devices_lists_pointed_infos enumerate_two the_device Playback
           (mkWorld no_handlers tt []) (fst (enumerate_two 1%positive tt)) tt).
  - reflexivity.
  - reflexivity.
  - unfold allocated_slots. simpl. lia.
Defined.

Lemma Devices_returns_only_counted_witness :
  @None error = None
  /\ enum_ret (fst (enumerate_two 1%positive tt)) = Success
  /\ Z.of_nat (length [speakers; headset]) <= 3
  /\ forall info, info ∈ [speakers; headset] ->
       exists i : nat,
         Z.of_nat i < 3
         /\ infos_of Playback (fst (enumerate_two 1%positive tt)) i
              = Some info.
Proof.
  exact (Devices_returns_only_counted enumerate_two the_device Playback
           (mkWorld no_handlers tt []) (mkWorld no_handlers tt [])
           (fst (enumerate_two 1%positive tt)) tt [speakers; headset] None
           eq_refl eq_refl).
Defined.

Lemma Devices_failure_witness :
  Devices enumerate_fails the_device Capture (mkWorld no_handlers tt [])
  = Ok ((None, Some EnumerationFailed), mkWorld no_handlers tt []).
Proof.
  apply (Devices_failure enumerate_fails the_device Capture
           (mkWorld no_handlers tt []) (fst (enumerate_fails 1%positive tt))
           tt EnumerationFailed).
  - reflexivity.
  - reflexivity.
Defined.

Lemma onSendSamples_full_read_witness :
  onSendSamples read_file 2 2 256 (mkSlice 3%positive 1024 sample_window) 5000
  = Ok (256, 3976).
Proof.
  apply (onSendSamples_full_read read_file 2 2 256
           (mkSlice 3%positive 1024 sample_window) 5000 3976).
  - unfold is_uint32. lia.
  - lia.
  - lia.
  - unfold is_uint32. simpl. lia.
  - reflexivity.
  - reflexivity.
Defined.

Lemma onSendSamples_whole_frames_witness :
  exists k : Z,
    onSendSamples read_file 2 2 256 (mkSlice 3%positive 1024 sample_window) 10
      = Ok (k, 0)
    /\ 0 <= k <= 256
    /\ k * 2 * 2 <= 10 < (k + 1) * 2 * 2.
Proof.
  apply (onSendSamples_whole_frames read_file 2 2 256
           (mkSlice 3%positive 1024 sample_window) 10 0 10).
  - unfold is_uint32. lia.
  - lia.
  - lia.
  - unfold is_uint32. lia.
  - lia.
  - reflexivity.
Defined.

Lemma onSendSamples_zero_divisor_witness :
  onSendSamples read_file 0 2 256 (mkSlice 3%positive 0 sample_window) 5000
  = Panic.
Proof.
  apply (onSendSamples_zero_divisor read_file 0 2 256
           (mkSlice 3%positive 0 sample_window) 5000).
  left. reflexivity.
Defined.
